(** * Extruded cubic Bezier surface: a shallow embedding of [Main.py]

    The development follows the class [BezierSurface] of [Main.py]:
    the constructor [__init__], the static method [bezier_point]
    (de Casteljau's algorithm), [surface_point],
    [calculate_and_display_point] and the loader [from_file].

    NumPy arrays are one-dimensional arrays of scalars, that is lists, with
    NumPy's element-wise operations and its broadcasting rule; a Python
    exception is a value of [exn] carried by [result].

    The arithmetic of the scalars is a type class, so that every function
    of the program is translated once and read at two instances:
    - [float], IEEE 754 binary64 as Python's [float] and NumPy's [float64]
      are, on which the definitions run;
    - [R], the real numbers, the exact arithmetic in which the algebraic
      laws of the curve and of the surface are stated. A quotient by zero,
      not a number or an infinity in binary64, has no meaning there: the
      laws that involve the stored direction assume a norm that is not
      zero.

    What the program returns is its reading at [float]; a theorem at [R]
    says what its formulas compute in exact arithmetic. Where the two
    part, a counterexample at [float] is given. *)

From Stdlib Require Import Floats.
From Stdlib Require Import List Bool Arith Lia Ascii.
From Stdlib Require String.
Import String (string, EmptyString, String, append).
Import String.StringSyntax.
Delimit Scope string_scope with string.
From Stdlib Require Import Reals Lra Psatz.
Import ListNotations.

(** ** Python exceptions and results *)

(** The exceptions the modelled code can raise: [TypeError] (a call with
    the wrong number of positional arguments), [ValueError] (operands
    that cannot be broadcast together, text that is not a number, a line
    with the wrong number of fields), [FileNotFoundError] and [OSError]
    (a file that cannot be opened or read) and [RuntimeError]. *)
Inductive exn : Type :=
| TypeError
| ValueError
| FileNotFoundError
| OSError
| RuntimeError.

Inductive result (A : Type) : Type :=
| Ok (a : A)
| Raise (e : exn).

Arguments Ok {A} a.
Arguments Raise {A} e.

Definition bind {A B : Type} (r : result A) (k : A -> result B) : result B :=
  match r with
  | Ok a => k a
  | Raise e => Raise e
  end.

Notation "x <- r ;; k" := (bind r (fun x => k))
  (at level 61, r at next level, right associativity).

(** A list comprehension whose element expression can raise: the first
    exception ends it. *)
Fixpoint mapM {A B : Type} (f : A -> result B) (l : list A) : result (list B) :=
  match l with
  | [] => Ok []
  | a :: l' => b <- f a ;; bs <- mapM f l' ;; Ok (b :: bs)
  end.

(** [raises r]: the computation ends in an exception. *)
Definition raises {A : Type} (r : result A) : Prop :=
  exists e, r = Raise e.

(** ** Scalars *)

Class Scalar (F : Type) : Type := {
  zero : F;
  one : F;
  add : F -> F -> F;
  sub : F -> F -> F;
  mul : F -> F -> F;
  div : F -> F -> F;
  sqrt : F -> F
}.

(** IEEE 754 binary64. *)
#[export] Instance Float64 : Scalar float := {
  zero := 0%float;
  one := 1%float;
  add := PrimFloat.add;
  sub := PrimFloat.sub;
  mul := PrimFloat.mul;
  div := PrimFloat.div;
  sqrt := PrimFloat.sqrt
}.

(** Exact real arithmetic. *)
#[export] Instance Real : Scalar R := {
  zero := 0%R;
  one := 1%R;
  add := Rplus;
  sub := Rminus;
  mul := Rmult;
  div := Rdiv;
  sqrt := R_sqrt.sqrt
}.

(** ** NumPy arrays *)

Section Numpy.

Context {F : Type} `{Scalar F}.

(** A one-dimensional [np.array] of scalars. *)
Definition ndarray : Type := list F.

(** [s * a] for a scalar [s] and an array [a]. *)
Definition scalar_mul (s : F) (a : ndarray) : ndarray :=
  map (fun x => mul s x) a.

(** [a / s] for an array [a] and a scalar [s]. *)
Definition div_scalar (a : ndarray) (s : F) : ndarray :=
  map (fun x => div x s) a.

(** Element-wise combination of two arrays of the same length. *)
Fixpoint map2 (f : F -> F -> F) (a b : ndarray) : ndarray :=
  match a, b with
  | x :: a', y :: b' => f x y :: map2 f a' b'
  | _, _ => []
  end.

(** A binary operator between two one-dimensional arrays: element-wise
    when the lengths agree; an array of length 1 is stretched to the
    other's length; any other pair of lengths raises [ValueError]
    ("operands could not be broadcast together"). *)
Definition broadcast (f : F -> F -> F) (a b : ndarray) : result ndarray :=
  if length a =? length b then Ok (map2 f a b)
  else match a, b with
       | [x], _ => Ok (map (fun y => f x y) b)
       | _, [y] => Ok (map (fun x => f x y) a)
       | _, _ => Raise ValueError
       end.

(** [a + b] and [a - b] for arrays. *)
Definition array_add (a b : ndarray) : result ndarray := broadcast add a b.
Definition array_sub (a b : ndarray) : result ndarray := broadcast sub a b.

(** [x.dot(x)]: the sum of the squares, accumulated from the left. In
    binary64 the order of the sum matters to the rounding; the binary64
    results below are on three coordinates whose squares add up exactly,
    overflow or underflow, in any order. *)
Definition sqnorm (x : ndarray) : F :=
  fold_left (fun acc xi => add acc (mul xi xi)) x zero.

(** [np.linalg.norm(x)] for a one-dimensional real array: the square root
    of [x.dot(x)]. *)
Definition norm (x : ndarray) : F := sqrt (sqnorm x).

(** ** The class [BezierSurface] *)

Record BezierSurface : Type := {
  control_points : list ndarray;
  delta : F;
  direction_vector : ndarray;
  u0 : F;
  v0 : F
}.

(** [BezierSurface.__init__]: the arguments are stored as they are, except
    the direction, stored divided by its norm. Nothing is checked and
    nothing is raised. *)
Definition __init__ (control_points : list ndarray) (delta : F)
    (direction_vector : ndarray) (u0 v0 : F) : result BezierSurface :=
  Ok {| control_points := control_points;
        delta := delta;
        direction_vector := div_scalar direction_vector (norm direction_vector);
        u0 := u0;
        v0 := v0 |}.

(** [BezierSurface.bezier_point]: three levels of linear interpolation. *)
Definition bezier_point (p0 p1 p2 p3 : ndarray) (u : F) : result ndarray :=
  p01 <- array_add (scalar_mul (sub one u) p0) (scalar_mul u p1) ;;
  p12 <- array_add (scalar_mul (sub one u) p1) (scalar_mul u p2) ;;
  p23 <- array_add (scalar_mul (sub one u) p2) (scalar_mul u p3) ;;
  p012 <- array_add (scalar_mul (sub one u) p01) (scalar_mul u p12) ;;
  p123 <- array_add (scalar_mul (sub one u) p12) (scalar_mul u p23) ;;
  array_add (scalar_mul (sub one u) p012) (scalar_mul u p123).

(** [BezierSurface.surface_point]: the control points are unpacked into
    the positional arguments of [bezier_point], which needs exactly four
    of them, any other count is a [TypeError];
    the curve point is then moved by [v * self.delta] along the stored
    direction. *)
Definition surface_point (self : BezierSurface) (u v : F) : result ndarray :=
  match control_points self with
  | [p0; p1; p2; p3] =>
      r_u <- bezier_point p0 p1 p2 p3 u ;;
      array_add r_u (scalar_mul (mul v (delta self)) (direction_vector self))
  | _ => Raise TypeError
  end.

(** [BezierSurface.calculate_and_display_point]: the point at the stored
    parameters; the value returned here is the point that is printed. *)
Definition calculate_and_display_point (self : BezierSurface) : result ndarray :=
  surface_point self (u0 self) (v0 self).

End Numpy.

(** ** The text of the input file

    A line is a string of characters below 256. *)

(** [str.isspace] of one character: the ASCII control characters 9 to 13
    and 28 to 31, the space, and the characters 133 and 160. *)
Definition isspace (c : ascii) : bool :=
  let n := nat_of_ascii c in
  ((9 <=? n) && (n <=? 13)) || ((28 <=? n) && (n <=? 32))
  || (n =? 133) || (n =? 160).

Fixpoint lstrip (s : string) : string :=
  match s with
  | EmptyString => EmptyString
  | String c s' => if isspace c then lstrip s' else s
  end.

Fixpoint rstrip (s : string) : string :=
  match s with
  | EmptyString => EmptyString
  | String c s' =>
      match rstrip s' with
      | EmptyString => if isspace c then EmptyString else String c EmptyString
      | r => String c r
      end
  end.

(** [s.strip()]. *)
Definition strip (s : string) : string := rstrip (lstrip s).

(** [s.split()]: the maximal runs of characters that are not white space;
    [tok] is the run being read. *)
Fixpoint split_from (tok : string) (s : string) : list string :=
  match s with
  | EmptyString =>
      match tok with
      | EmptyString => []
      | _ => [tok]
      end
  | String c s' =>
      if isspace c then
        match tok with
        | EmptyString => split_from EmptyString s'
        | _ => tok :: split_from EmptyString s'
        end
      else split_from (append tok (String c EmptyString)) s'
  end.

Definition split (s : string) : list string := split_from EmptyString s.

(** [s.startswith('#')]. *)
Definition startswith_hash (s : string) : bool :=
  match s with
  | String c _ => Ascii.eqb c "#"%char
  | EmptyString => false
  end.

(** The truth value of a string: it is not empty. *)
Definition truthy (s : string) : bool :=
  match s with
  | EmptyString => false
  | String _ _ => true
  end.

(** What opening and reading the file gives: its lines; or the failure
    of [open], for a file that does not exist or for another reason; or
    the failure of reading it as text, for bytes that cannot be decoded.
    This last exception, a [UnicodeDecodeError], is a [ValueError]. *)
Inductive file : Type :=
| Lines (lines : list string)
| NotFound
| Unreadable
| Undecodable.

Definition read_lines (f : file) : result (list string) :=
  match f with
  | Lines lines => Ok lines
  | NotFound => Raise FileNotFoundError
  | Unreadable => Raise OSError
  | Undecodable => Raise ValueError
  end.

(** ** The loader [from_file] *)

(** The [except] clauses of [from_file], in their order: a
    [FileNotFoundError] and a [ValueError] are raised again as such, with
    a message of their own; any other exception becomes a
    [RuntimeError]. *)
Definition from_file_except (e : exn) : exn :=
  match e with
  | FileNotFoundError => FileNotFoundError
  | ValueError => ValueError
  | _ => RuntimeError
  end.

Section Loader.

Context {F : Type} `{Scalar F}.

(** The built-in [float] on a string: [None] stands for its [ValueError]. *)
Variable float_of_string : string -> option F.

Definition py_float (s : string) : result F :=
  match float_of_string s with
  | Some x => Ok x
  | None => Raise ValueError
  end.

(** [np.array([float(x) for x in line.split()])]. *)
Definition parse_array (line : string) : result ndarray :=
  mapM py_float (split line).

(** The body of the [try] of [from_file]. The lines kept are those that
    are not blank and do not start with [#], stripped. The direction is
    divided by its norm here and once more by the constructor. Unpacking
    [map(float, lines[6].split())] into two names raises [ValueError] as
    soon as a field is not a number or the fields are not exactly two. *)
Definition from_file_body (f : file) : result BezierSurface :=
  raw <- read_lines f ;;
  let lines :=
    map strip
      (filter (fun line => truthy (strip line) && negb (startswith_hash line))
         raw) in
  if length lines <? 7 then Raise ValueError
  else
    control_points <-
      mapM (fun i => parse_array (nth i lines EmptyString)) [0; 1; 2; 3] ;;
    if existsb (fun point => negb (length point =? 3)) control_points
    then Raise ValueError
    else
      delta <- py_float (nth 4 lines EmptyString) ;;
      direction_vector <- parse_array (nth 5 lines EmptyString) ;;
      if negb (length direction_vector =? 3) then Raise ValueError
      else
        let direction_vector :=
          div_scalar direction_vector (norm direction_vector) in
        uv <- mapM py_float (split (nth 6 lines EmptyString)) ;;
        match uv with
        | [u0; v0] => __init__ control_points delta direction_vector u0 v0
        | _ => Raise ValueError
        end.

(** [BezierSurface.from_file] on the outcome of reading the file. *)
Definition from_file (f : file) : result BezierSurface :=
  match from_file_body f with
  | Ok self => Ok self
  | Raise e => Raise (from_file_except e)
  end.

End Loader.

(** ** Methods and the lifetime of an object

    An object is built once and then queried by calls of the two methods
    that take [self]. The body of a method runs on the object: it can read
    an attribute, assign one, raise, and use what the rest of the program
    computes. [method A] is such a body with a result in [A]: from the
    object before the call, the result of the call and the object after
    it. *)

Section Lifetime.

Context {F : Type} `{Scalar F}.

Definition method (A : Type) : Type :=
  @BezierSurface F -> result A * @BezierSurface F.

(** A result, or an exception, that does not involve the object. *)
Definition method_return {A : Type} (r : result A) : method A :=
  fun self => (r, self).

(** [self.attribute], read. *)
Definition getattr {A : Type} (attribute : @BezierSurface F -> A) : method A :=
  fun self => (Ok (attribute self), self).

(** [self.attribute = value]: the object after it is [assign self]. *)
Definition setattr (assign : @BezierSurface F -> @BezierSurface F)
  : method unit :=
  fun self => (Ok tt, assign self).

(** One statement after another: an exception of the first ends the
    body, with the object as the first left it. *)
Definition method_bind {A B : Type} (m : method A) (k : A -> method B)
  : method B :=
  fun self =>
    match m self with
    | (Ok a, self') => k a self'
    | (Raise e, self') => (Raise e, self')
    end.

Notation "x <~ m ;; k" := (method_bind m (fun x => k))
  (at level 61, m at next level, right associativity).

(** The body of [surface_point], attribute by attribute as the source
    reads them. *)
Definition surface_point_method (u v : F) : method ndarray :=
  points <~ getattr control_points ;;
  match points with
  | [p0; p1; p2; p3] =>
      r_u <~ method_return (bezier_point p0 p1 p2 p3 u) ;;
      dl <~ getattr delta ;;
      direction <~ getattr direction_vector ;;
      method_return (array_add r_u (scalar_mul (mul v dl) direction))
  | _ => method_return (Raise TypeError)
  end.

(** The body of [calculate_and_display_point]; its result is the point
    that is printed. *)
Definition calculate_and_display_point_method : method ndarray :=
  u <~ getattr u0 ;;
  v <~ getattr v0 ;;
  surface_point_method u v.

Inductive call : Type :=
| Call_surface_point (u v : F)
| Call_calculate_and_display_point.

Definition call_method (c : call) : method ndarray :=
  match c with
  | Call_surface_point u v => surface_point_method u v
  | Call_calculate_and_display_point => calculate_and_display_point_method
  end.

(** The object after a sequence of calls, whatever their results. *)
Definition run_calls (self : BezierSurface) (cs : list call) : BezierSurface :=
  fold_left (fun s c => snd (call_method c s)) cs self.

End Lifetime.

(** ** The Bernstein form of the cubic

    The polynomial the curve is specified by, written with the Bernstein
    basis of degree 3, coordinate by coordinate; [bernstein_point] stops at
    the shortest of the four points. *)

Definition bernstein (u a b c d : R) : R :=
  ((1 - u) ^ 3 * a + 3 * (1 - u) ^ 2 * u * b
   + 3 * (1 - u) * u ^ 2 * c + u ^ 3 * d)%R.

Fixpoint bernstein_point (p0 p1 p2 p3 : list R) (u : R) : list R :=
  match p0, p1, p2, p3 with
  | a :: p0', b :: p1', c :: p2', d :: p3' =>
      bernstein u a b c d :: bernstein_point p0' p1' p2' p3' u
  | _, _, _, _ => []
  end.

(** ** Coordinates and their range *)

(** The [i]-th coordinate of a real point (0 past its end). *)
Definition coord (p : list R) (i : nat) : R := nth i p 0%R.

Definition min4 (a b c d : R) : R := Rmin (Rmin a b) (Rmin c d).
Definition max4 (a b c d : R) : R := Rmax (Rmax a b) (Rmax c d).

(** A point of the three-dimensional space: an array of three scalars. *)
Definition is_point3 {F : Type} (p : list F) : bool := length p =? 3.

(** ** Binary64 numbers *)

(** A zero of either sign or a finite number that is not zero: not an
    infinity and not a NaN. *)
Definition is_finite (x : float) : bool :=
  match Prim2SF x with
  | S754_zero _ | S754_finite _ _ _ => true
  | _ => false
  end.

(** A zero of either sign. *)
Definition is_zero (x : float) : bool :=
  match Prim2SF x with
  | S754_zero _ => true
  | _ => false
  end.

(** The same binary64 number, up to the sign of a zero. *)
Definition same_number (x y : float) : Prop :=
  x = y \/ (is_zero x = true /\ is_zero y = true).

(** ** One coordinate of the curve *)

(** [(1 - u) * a + u * b] on scalars: what an interpolation step of
    [bezier_point] computes in each coordinate. *)
Definition lerp {F : Type} `{Scalar F} (u a b : F) : F :=
  add (mul (sub one u) a) (mul u b).

(** The three levels of [bezier_point] in one coordinate. *)
Definition de_casteljau {F : Type} `{Scalar F} (u a b c d : F) : F :=
  lerp u (lerp u (lerp u a b) (lerp u b c)) (lerp u (lerp u b c) (lerp u c d)).

(** ** The lines of the file that [from_file] uses *)

(** The lines that are not blank and do not start with [#], stripped: the
    list [lines] of [from_file]. *)
Definition data_lines (raw : list string) : list string :=
  map strip
    (filter (fun line => truthy (strip line) && negb (startswith_hash line)) raw).

(** ** A file to read

    A stand-in for the built-in [float] on the numerals of one digit, and
    the lines of a file written with them, each ended by a line feed. *)

Definition digit_float (s : string) : option float :=
  match s with
  | String c EmptyString =>
      match c with
      | "0"%char => Some 0%float
      | "1"%char => Some 1%float
      | "2"%char => Some 2%float
      | "3"%char => Some 3%float
      | "4"%char => Some 4%float
      | "5"%char => Some 5%float
      | "6"%char => Some 6%float
      | "7"%char => Some 7%float
      | "8"%char => Some 8%float
      | "9"%char => Some 9%float
      | _ => None
      end
  | _ => None
  end.

Definition sample_lines : list string :=
  map (fun line => append line (String "010"%char EmptyString))
    ["# control points"; "0 0 0"; "1 2 0"; ""; "2 2 0"; "3 0 0";
     "# delta"; "2"; "# direction"; "0 0 5"; "# u0 v0"; "1 1"]%string.

(** ** The menu loop [main] *)

Section Main.

Context {F : Type} `{Scalar F}.

Variable float_of_string : string -> option F.

(** What [main] writes: the three lines of the menu followed by the prompt
    of [input]; the point, with the parameters it is printed with; the
    two messages. *)
Inductive output : Type :=
| Menu
| Point (u0 v0 : F) (r_uv : list F)
| Goodbye
| Invalid.

(** How [main] ends: it returns after the option [2]; an exception of
    the loader or of the evaluation leaves it; or [input] finds no more
    input, and its [EOFError] leaves it. *)
Inductive ending : Type :=
| Returned
| Raised (e : exn)
| EndOfInput.

(** The [while True] loop of [main] on the options typed, one per call of
    [input]. *)
Fixpoint menu_loop (bezier_surface : BezierSurface) (options : list string)
  : list output * ending :=
  match options with
  | [] => ([Menu], EndOfInput)
  | opt :: options' =>
      if String.eqb opt "1"%string then
        match calculate_and_display_point bezier_surface with
        | Ok r_uv =>
            let (out, e) := menu_loop bezier_surface options' in
            (Menu :: Point (u0 bezier_surface) (v0 bezier_surface) r_uv :: out, e)
        | Raise e => ([Menu], Raised e)
        end
      else if String.eqb opt "2"%string then ([Menu; Goodbye], Returned)
      else
        let (out, e) := menu_loop bezier_surface options' in
        (Menu :: Invalid :: out, e)
  end.

(** What one turn of the loop writes for an option that is not [2], on a
    surface whose point at the stored parameters is [r_uv]. *)
Definition menu_round (bezier_surface : BezierSurface) (r_uv : list F)
    (opt : string) : list output :=
  if String.eqb opt "1"%string
  then [Menu; Point (u0 bezier_surface) (v0 bezier_surface) r_uv]
  else [Menu; Invalid].

(** [main] on the outcome of reading [input.txt] and the options typed. *)
Definition main (input_file : file) (options : list string)
  : list output * ending :=
  match from_file float_of_string input_file with
  | Ok bezier_surface => menu_loop bezier_surface options
  | Raise e => ([], Raised e)
  end.

End Main.

(** * Properties *)

(** ** Shapes *)

Lemma point3_inv (A : Type) (p : list A) :
  is_point3 p = true -> exists x y z, p = [x; y; z].
Proof.
  unfold is_point3. intro Hp. apply Nat.eqb_eq in Hp.
  destruct p as [|x [|y [|z [|w p]]]]; try discriminate Hp.
  now exists x, y, z.
Qed.

(** Replace a point known to have three coordinates by its coordinates. *)
Ltac point3 H :=
  let x := fresh "x" in
  let y := fresh "y" in
  let z := fresh "z" in
  apply point3_inv in H; destruct H as (x & y & z & ->).

Lemma Ok_point3 (A : Type) (x y z x' y' z' : A) :
  x = x' -> y = y' -> z = z' -> Ok [x; y; z] = Ok [x'; y'; z'].
Proof. intros -> -> ->. reflexivity. Qed.

(** Close an equation between two results holding three-dimensional
    points, one coordinate at a time. *)
Tactic Notation "coordinatewise" tactic(t) := apply Ok_point3; t.

(** ** The loader checks the shapes *)

Lemma bind_Ok (A B : Type) (r : result A) (k : A -> result B) (b : B) :
  (x <- r ;; k x) = Ok b -> exists a, r = Ok a /\ k a = Ok b.
Proof.
  destruct r as [a | e]; cbn; intro Hb.
  - now exists a.
  - discriminate Hb.
Qed.

Lemma mapM_length (A B : Type) (f : A -> result B) (l : list A) (l' : list B) :
  mapM f l = Ok l' -> length l' = length l.
Proof.
  revert l'. induction l as [|a l IH]; intros l' Hl'; cbn in Hl'.
  - injection Hl' as <-. reflexivity.
  - apply bind_Ok in Hl'. destruct Hl' as (b & _ & Hl').
    apply bind_Ok in Hl'. destruct Hl' as (bs & Hbs & Hl').
    injection Hl' as <-. cbn. f_equal. now apply IH.
Qed.

Lemma div_scalar_length {F : Type} `{Scalar F} (a : ndarray) (s : F) :
  length (div_scalar a s) = length a.
Proof. unfold div_scalar. apply length_map. Qed.

(** An object that [from_file] returns has exactly four control points
    of three coordinates each and a direction of three coordinates: the
    shape checks of the program are made on the text of the file, before
    the constructor is called. *)
Lemma from_file_shape {F : Type} `{Scalar F}
    (float_of_string : string -> option F) (f : file) (s : BezierSurface) :
  from_file float_of_string f = Ok s ->
  length (control_points s) = 4
  /\ forallb is_point3 (control_points s) = true
  /\ is_point3 (direction_vector s) = true.
Proof.
  unfold from_file.
  destruct (from_file_body float_of_string f) as [s' | e] eqn:Hs;
    [| discriminate].
  intro Hs'. injection Hs' as ->.
  unfold from_file_body in Hs. destruct f as [raw | | |]; try discriminate.
  cbn [read_lines bind] in Hs. cbv zeta in Hs.
  destruct (length _ <? 7); [discriminate |].
  apply bind_Ok in Hs. destruct Hs as (cps & Hcps & Hs).
  destruct (existsb (fun point => negb (length point =? 3)) cps) eqn:Hex;
    [discriminate |].
  apply bind_Ok in Hs. destruct Hs as (delta & _ & Hs).
  apply bind_Ok in Hs. destruct Hs as (d & _ & Hs).
  destruct (negb (length d =? 3)) eqn:Hd; [discriminate |].
  apply bind_Ok in Hs. destruct Hs as (uv & _ & Hs).
  destruct uv as [|u0 [|v0 [|w uv]]]; try discriminate.
  injection Hs as <-. cbn [control_points direction_vector].
  split; [| split].
  - now apply mapM_length in Hcps.
  - rewrite forallb_forall. intros p Hp.
    destruct (is_point3 p) eqn:Hp3; [reflexivity |].
    assert (Hex' : existsb (fun point => negb (length point =? 3)) cps = true).
    { apply existsb_exists. exists p. split; [exact Hp |].
      unfold is_point3 in Hp3. now rewrite Hp3. }
    congruence.
  - unfold is_point3. rewrite !div_scalar_length.
    now apply negb_false_iff in Hd.
Qed.

(** A file with fewer than seven lines that are neither blank nor comments
    is refused, whatever they hold. *)
Lemma from_file_too_short {F : Type} `{Scalar F}
    (float_of_string : string -> option F) (raw : list string) :
  length (filter (fun line => truthy (strip line) && negb (startswith_hash line))
            raw) < 7 ->
  from_file float_of_string (Lines raw) = Raise ValueError.
Proof.
  intro Hlen. unfold from_file, from_file_body.
  cbn [read_lines bind]. cbv zeta. rewrite length_map.
  apply Nat.ltb_lt in Hlen. now rewrite Hlen.
Qed.

Lemma bind_Raise (A B : Type) (r : result A) (k : A -> result B) (e : exn) :
  (x <- r ;; k x) = Raise e ->
  r = Raise e \/ exists a, r = Ok a /\ k a = Raise e.
Proof.
  destruct r as [a | e']; cbn; intro He.
  - right. now exists a.
  - left. now injection He as <-.
Qed.

Lemma mapM_Raise (A B : Type) (f : A -> result B) (l : list A) (e0 e : exn) :
  (forall a e', f a = Raise e' -> e' = e0) ->
  mapM f l = Raise e -> e = e0.
Proof.
  intros Hf. induction l as [|a l IH]; cbn; intro He.
  - discriminate He.
  - apply bind_Raise in He. destruct He as [He | (b & _ & He)].
    + now apply Hf in He.
    + apply bind_Raise in He. destruct He as [He | (bs & _ & He)].
      * now apply IH.
      * discriminate He.
Qed.

Lemma py_float_Raise {F : Type} (float_of_string : string -> option F)
    (s : string) (e : exn) :
  py_float float_of_string s = Raise e -> e = ValueError.
Proof.
  unfold py_float. destruct (float_of_string s); intro He.
  - discriminate He.
  - now injection He as <-.
Qed.

Lemma parse_array_Raise {F : Type} (float_of_string : string -> option F)
    (line : string) (e : exn) :
  parse_array float_of_string line = Raise e -> e = ValueError.
Proof.
  unfold parse_array. apply mapM_Raise. intros a e'. apply py_float_Raise.
Qed.

(** On a file that could be read, the only exception of [from_file] is
    [ValueError]. *)
Lemma from_file_Lines_Raise {F : Type} `{Scalar F}
    (float_of_string : string -> option F) (raw : list string) (e : exn) :
  from_file float_of_string (Lines raw) = Raise e -> e = ValueError.
Proof.
  unfold from_file.
  destruct (from_file_body float_of_string (Lines raw)) as [s | e'] eqn:Hbody;
    [discriminate |].
  intro He. injection He as <-.
  enough (e' = ValueError) as -> by reflexivity.
  unfold from_file_body in Hbody. cbn [read_lines bind] in Hbody.
  cbv zeta in Hbody.
  destruct (length _ <? 7); [now injection Hbody as <- |].
  apply bind_Raise in Hbody. destruct Hbody as [He | (cps & _ & Hbody)].
  { apply mapM_Raise with (e0 := ValueError) in He; [exact He |].
    intros i e''. apply parse_array_Raise. }
  destruct (existsb (fun point => negb (length point =? 3)) cps);
    [now injection Hbody as <- |].
  apply bind_Raise in Hbody. destruct Hbody as [He | (delta & _ & Hbody)].
  { now apply py_float_Raise in He. }
  apply bind_Raise in Hbody. destruct Hbody as [He | (d & _ & Hbody)].
  { now apply parse_array_Raise in He. }
  destruct (negb (length d =? 3)); [now injection Hbody as <- |].
  apply bind_Raise in Hbody. destruct Hbody as [He | (uv & _ & Hbody)].
  { apply mapM_Raise with (e0 := ValueError) in He; [exact He |].
    intros a e''. apply py_float_Raise. }
  destruct uv as [|u0 [|v0 [|w uv]]]; try (now injection Hbody as <-).
  discriminate Hbody.
Qed.

(** On four control points and a direction of three coordinates each,
    [surface_point] raises nothing and returns a point of three
    coordinates, whatever the parameters. *)
Lemma surface_point_total {F : Type} `{Scalar F} (self : BezierSurface)
    (u v : F) :
  length (control_points self) = 4 ->
  forallb is_point3 (control_points self) = true ->
  is_point3 (direction_vector self) = true ->
  exists r : ndarray, surface_point self u v = Ok r /\ is_point3 r = true.
Proof.
  destruct self as [cps delta d u0 v0]. cbn [control_points direction_vector].
  intros Hlen Hcps Hd.
  destruct cps as [|p0 [|p1 [|p2 [|p3 [|p4 cps]]]]]; try discriminate Hlen.
  cbn in Hcps. rewrite !andb_true_iff in Hcps.
  destruct Hcps as (H0 & H1 & H2 & H3 & _).
  point3 H0. point3 H1. point3 H2. point3 H3. point3 Hd.
  eexists. split; reflexivity.
Qed.

(** Hence every evaluation on an object read from a file succeeds. *)
Lemma from_file_evaluates {F : Type} `{Scalar F}
    (float_of_string : string -> option F) (f : file) (s : BezierSurface)
    (u v : F) :
  from_file float_of_string f = Ok s ->
  exists r : ndarray, surface_point s u v = Ok r /\ is_point3 r = true.
Proof.
  intro Hs. apply from_file_shape in Hs. destruct Hs as (Hlen & Hcps & Hd).
  now apply surface_point_total.
Qed.

(** ** The object is never modified by a query *)

Section ReadOnly.

Context {F : Type} `{Scalar F}.

(** The body of [surface_point] computes what [surface_point] is, and
    leaves the object as it found it. *)
Lemma surface_point_method_spec (self : BezierSurface) (u v : F) :
  surface_point_method u v self = (surface_point self u v, self).
Proof.
  unfold surface_point_method, surface_point, method_bind, getattr,
    method_return.
  destruct (control_points self) as [|p0 [|p1 [|p2 [|p3 [|p4 cps]]]]];
    try reflexivity.
  destruct (bezier_point p0 p1 p2 p3 u); reflexivity.
Qed.

Lemma calculate_and_display_point_method_spec (self : BezierSurface) :
  calculate_and_display_point_method self
  = (calculate_and_display_point self, self).
Proof.
  unfold calculate_and_display_point_method, calculate_and_display_point,
    method_bind, getattr.
  apply surface_point_method_spec.
Qed.

(** No call of a method changes the object. *)
Lemma run_calls_unchanged (self : BezierSurface) (cs : list call) :
  run_calls self cs = self.
Proof.
  unfold run_calls. induction cs as [|c cs IH]; cbn [fold_left].
  - reflexivity.
  - destruct c as [u v |]; cbn [call_method].
    + rewrite surface_point_method_spec. exact IH.
    + rewrite calculate_and_display_point_method_spec. exact IH.
Qed.

(** An assignment does change the object: that the methods leave it
    unchanged is a fact about their bodies. *)
Remark setattr_changes (self : @BezierSurface F) (d : list F) :
  direction_vector
    (snd (setattr (fun s => {| control_points := control_points s;
                              delta := delta s;
                              direction_vector := d;
                              u0 := u0 s;
                              v0 := v0 s |}) self)) = d.
Proof. reflexivity. Qed.

End ReadOnly.

(** ** The curve, in exact arithmetic *)

Open Scope R_scope.





(** The three levels of interpolation, coordinate by coordinate: the
    cubic in Bernstein form. *)
Lemma de_casteljau_cubic (p0 p1 p2 p3 : list R) (u : R) :
  is_point3 p0 = true -> is_point3 p1 = true ->
  is_point3 p2 = true -> is_point3 p3 = true ->
  bezier_point p0 p1 p2 p3 u = Ok (bernstein_point p0 p1 p2 p3 u).
Proof.
  intros H0 H1 H2 H3. point3 H0. point3 H1. point3 H2. point3 H3.
  cbn. unfold bernstein. coordinatewise ring.
Qed.



(** ** The convex hull of the control points *)

Lemma min4_le (a b c d : R) :
  min4 a b c d <= a /\ min4 a b c d <= b /\ min4 a b c d <= c /\ min4 a b c d <= d.
Proof.
  unfold min4.
  pose proof (Rmin_l (Rmin a b) (Rmin c d)). pose proof (Rmin_r (Rmin a b) (Rmin c d)).
  pose proof (Rmin_l a b). pose proof (Rmin_r a b).
  pose proof (Rmin_l c d). pose proof (Rmin_r c d).
  repeat split; lra.
Qed.

Lemma max4_ge (a b c d : R) :
  a <= max4 a b c d /\ b <= max4 a b c d /\ c <= max4 a b c d /\ d <= max4 a b c d.
Proof.
  unfold max4.
  pose proof (Rmax_l (Rmax a b) (Rmax c d)). pose proof (Rmax_r (Rmax a b) (Rmax c d)).
  pose proof (Rmax_l a b). pose proof (Rmax_r a b).
  pose proof (Rmax_l c d). pose proof (Rmax_r c d).
  repeat split; lra.
Qed.

(** A convex combination of four numbers lies between the least and the
    greatest of them. *)
Lemma convex4_range (w0 w1 w2 w3 a b c d : R) :
  0 <= w0 -> 0 <= w1 -> 0 <= w2 -> 0 <= w3 -> w0 + w1 + w2 + w3 = 1 ->
  min4 a b c d <= w0 * a + w1 * b + w2 * c + w3 * d <= max4 a b c d.
Proof.
  intros H0 H1 H2 H3 Hsum.
  destruct (min4_le a b c d) as (La & Lb & Lc & Ld).
  destruct (max4_ge a b c d) as (Ua & Ub & Uc & Ud).
  set (lo := min4 a b c d) in *. set (hi := max4 a b c d) in *.
  split.
  - replace lo with (w0 * lo + w1 * lo + w2 * lo + w3 * lo)
      by (transitivity ((w0 + w1 + w2 + w3) * lo); [ring | rewrite Hsum; ring]).
    repeat apply Rplus_le_compat; apply Rmult_le_compat_l; assumption.
  - replace hi with (w0 * hi + w1 * hi + w2 * hi + w3 * hi)
      by (transitivity ((w0 + w1 + w2 + w3) * hi); [ring | rewrite Hsum; ring]).
    repeat apply Rplus_le_compat; apply Rmult_le_compat_l; assumption.
Qed.

(** The Bernstein weights of degree 3 on the unit interval. *)
Lemma bernstein_weights (u : R) :
  0 <= u <= 1 ->
  0 <= (1 - u) ^ 3 /\ 0 <= 3 * (1 - u) ^ 2 * u /\
  0 <= 3 * (1 - u) * u ^ 2 /\ 0 <= u ^ 3 /\
  (1 - u) ^ 3 + 3 * (1 - u) ^ 2 * u + 3 * (1 - u) * u ^ 2 + u ^ 3 = 1.
Proof.
  intros [Hu0 Hu1].
  assert (Hv : 0 <= 1 - u) by lra.
  repeat split.
  - apply pow_le; exact Hv.
  - apply Rmult_le_pos; [apply Rmult_le_pos; [lra | apply pow_le; exact Hv] | exact Hu0].
  - apply Rmult_le_pos; [apply Rmult_le_pos; [lra | exact Hv] | apply pow_le; exact Hu0].
  - apply pow_le; exact Hu0.
  - ring.
Qed.

(** C5, as amended. In exact arithmetic, for a parameter in the closed
    interval from 0 to 1 and control points with three real coordinates
    each, the point of the curve is a
    convex combination of the four control points (weights that are not
    negative and add up to 1), and each of its coordinates lies between
    the least and the greatest of the four corresponding coordinates. *)
Theorem bezier_point_convex_hull (p0 p1 p2 p3 : list R) (u : R) :
  is_point3 p0 = true -> is_point3 p1 = true ->
  is_point3 p2 = true -> is_point3 p3 = true ->
  0 <= u <= 1 ->
  exists (r : list R) (w0 w1 w2 w3 : R),
    bezier_point p0 p1 p2 p3 u = Ok r /\ is_point3 r = true /\
    0 <= w0 /\ 0 <= w1 /\ 0 <= w2 /\ 0 <= w3 /\ w0 + w1 + w2 + w3 = 1 /\
    forall i : nat, (i < 3)%nat ->
      coord r i
      = w0 * coord p0 i + w1 * coord p1 i + w2 * coord p2 i + w3 * coord p3 i
      /\ min4 (coord p0 i) (coord p1 i) (coord p2 i) (coord p3 i) <= coord r i
      /\ coord r i <= max4 (coord p0 i) (coord p1 i) (coord p2 i) (coord p3 i).
Proof.
  intros H0 H1 H2 H3 Hu.
  destruct (bernstein_weights u Hu) as (W0 & W1 & W2 & W3 & Wsum).
  exists (bernstein_point p0 p1 p2 p3 u),
    ((1 - u) ^ 3), (3 * (1 - u) ^ 2 * u), (3 * (1 - u) * u ^ 2), (u ^ 3).
  split; [apply de_casteljau_cubic; assumption |].
  split; [point3 H0; point3 H1; point3 H2; point3 H3; reflexivity |].
  do 5 (split; [assumption |]).
  intros i Hi.
  assert (Hc : coord (bernstein_point p0 p1 p2 p3 u) i
               = (1 - u) ^ 3 * coord p0 i + 3 * (1 - u) ^ 2 * u * coord p1 i
                 + 3 * (1 - u) * u ^ 2 * coord p2 i + u ^ 3 * coord p3 i).
  { point3 H0. point3 H1. point3 H2. point3 H3.
    destruct i as [|[|[|i]]]; try lia; reflexivity. }
  rewrite Hc. split; [reflexivity |].
  apply convex4_range; assumption.
Qed.

Lemma bezier_point_convex_hull_witness :
  exists (r : list R) (w0 w1 w2 w3 : R),
    bezier_point [0; 0; 0] [1; 2; 0] [2; 2; 0] [3; 0; 0] (1 / 2) = Ok r
    /\ is_point3 r = true /\
    0 <= w0 /\ 0 <= w1 /\ 0 <= w2 /\ 0 <= w3 /\ w0 + w1 + w2 + w3 = 1 /\
    forall i : nat, (i < 3)%nat ->
      coord r i
      = w0 * coord [0; 0; 0] i + w1 * coord [1; 2; 0] i
        + w2 * coord [2; 2; 0] i + w3 * coord [3; 0; 0] i
      /\ min4 (coord [0; 0; 0] i) (coord [1; 2; 0] i)
               (coord [2; 2; 0] i) (coord [3; 0; 0] i) <= coord r i
      /\ coord r i <= max4 (coord [0; 0; 0] i) (coord [1; 2; 0] i)
                            (coord [2; 2; 0] i) (coord [3; 0; 0] i).
Proof.
  apply (bezier_point_convex_hull [0; 0; 0] [1; 2; 0] [2; 2; 0] [3; 0; 0] (1 / 2));
    try reflexivity.
  lra.
Defined.

(** ** The stored direction *)

(** [x.dot(x)] at the exact instance. *)
Lemma sqnorm_real (x : list R) :
  sqnorm x = fold_left (fun a xi => a + xi * xi) x 0.
Proof. reflexivity. Qed.

Lemma sqnorm_acc_nonneg (x : list R) (acc : R) :
  0 <= acc -> 0 <= fold_left (fun a xi => a + xi * xi) x acc.
Proof.
  revert acc. induction x as [|xi x IH]; intros acc Hacc; cbn.
  - exact Hacc.
  - apply IH. nra.
Qed.

Lemma sqnorm_nonneg (x : list R) : 0 <= sqnorm x.
Proof. rewrite sqnorm_real. apply sqnorm_acc_nonneg. lra. Qed.

(** Dividing every coordinate by [n] divides the sum of squares by [n * n]. *)
Lemma sqnorm_acc_div (x : list R) (n acc : R) :
  n <> 0 ->
  fold_left (fun a xi => a + xi * xi) (map (fun xi => xi / n) x) (acc / (n * n))
  = fold_left (fun a xi => a + xi * xi) x acc / (n * n).
Proof.
  intro Hn. revert acc. induction x as [|xi x IH]; intro acc; cbn.
  - reflexivity.
  - rewrite <- IH. f_equal. field. exact Hn.
Qed.

Lemma norm_pos (d : list R) : norm d <> 0 -> 0 < norm d.
Proof.
  intro Hd. unfold norm in *. cbn in *.
  destruct (sqrt_pos (sqnorm d)) as [Hlt | Heq]; [exact Hlt | congruence].
Qed.

(** A vector divided by its norm has norm 1. *)
Lemma norm_normalized (d : list R) :
  norm d <> 0 -> norm (div_scalar d (norm d)) = 1.
Proof.
  intro Hd. pose proof (norm_pos d Hd) as Hpos.
  assert (Hsq : norm d * norm d = sqnorm d).
  { unfold norm. cbn. apply sqrt_sqrt, sqnorm_nonneg. }
  unfold norm at 1. rewrite sqnorm_real. unfold div_scalar. cbn.
  replace 0 with (0 / (norm d * norm d)) at 1 by (field; exact Hd).
  rewrite sqnorm_acc_div by exact Hd.
  rewrite <- sqnorm_real, <- Hsq.
  replace (norm d * norm d / (norm d * norm d)) with 1 by (field; exact Hd).
  apply sqrt_1.
Qed.

Lemma div_scalar_scalar_mul (d : list R) (n : R) :
  div_scalar d n = scalar_mul (/ n) d.
Proof.
  unfold div_scalar, scalar_mul. apply map_ext. intro x. cbn.
  unfold Rdiv. ring.
Qed.


Lemma norm_005 : norm [0; 0; 5] = 5.
Proof.
  unfold norm. cbn.
  replace (0 + 0 * 0 + 0 * 0 + 5 * 5) with (5 * 5) by ring.
  apply sqrt_square. lra.
Qed.



(** ** The surface, in exact arithmetic *)

Close Scope R_scope.
Open Scope float_scope.

Lemma Prim2SF_inj (x y : float) : Prim2SF x = Prim2SF y -> x = y.
Proof.
  intro Hxy. rewrite <- (SF2Prim_Prim2SF x), <- (SF2Prim_Prim2SF y).
  now rewrite Hxy.
Qed.

(** A zero times a finite number is a zero. *)
Lemma mul_zero_finite (z y : float) :
  is_zero z = true -> is_finite y = true -> is_zero (z * y) = true.
Proof.
  unfold is_zero, is_finite. rewrite mul_spec.
  destruct (Prim2SF z); try discriminate.
  destruct (Prim2SF y); try discriminate; reflexivity.
Qed.

(** Adding a zero changes at most the sign of a zero. *)
Lemma add_zero_r (x z : float) : is_zero z = true -> same_number (x + z) x.
Proof.
  unfold same_number, is_zero. intro Hz.
  destruct (Prim2SF z) as [sz | | |] eqn:Ez; try discriminate.
  destruct (Prim2SF x) as [sx | sx | | sx mx ex] eqn:Ex.
  - right. rewrite add_spec, Ex, Ez. split; [| reflexivity].
    destruct sx, sz; reflexivity.
  - left. apply Prim2SF_inj. rewrite add_spec, Ex, Ez. reflexivity.
  - left. apply Prim2SF_inj. rewrite add_spec, Ex, Ez. reflexivity.
  - left. apply Prim2SF_inj. rewrite add_spec, Ex, Ez. reflexivity.
Qed.

(** In binary64 arithmetic, with a finite [delta] and a finite stored
    direction, the offset at [v = 0] is a zero in every coordinate. *)
Lemma surface_point_v0_binary64 (p0 p1 p2 p3 d : list float)
    (delta u0 v0 u : float) (s : BezierSurface) :
  is_point3 p0 = true -> is_point3 p1 = true ->
  is_point3 p2 = true -> is_point3 p3 = true ->
  is_point3 d = true ->
  __init__ [p0; p1; p2; p3] delta d u0 v0 = Ok s ->
  is_finite delta = true ->
  forallb is_finite (direction_vector s) = true ->
  exists r r' : list float,
    bezier_point p0 p1 p2 p3 u = Ok r
    /\ surface_point s u 0 = Ok r'
    /\ Forall2 same_number r' r.
Proof.
  intros H0 H1 H2 H3 Hd Hs Hdl Hfin.
  unfold __init__ in Hs.
  assert (Es : {| control_points := [p0; p1; p2; p3];
                  delta := delta;
                  direction_vector := div_scalar d (norm d);
                  u0 := u0;
                  v0 := v0 |} = s) by congruence.
  subst s. clear Hs. cbn [direction_vector] in Hfin.
  assert (Hd' : is_point3 (div_scalar d (norm d)) = true)
    by (unfold is_point3 in *; now rewrite div_scalar_length).
  revert Hfin Hd'. generalize (div_scalar d (norm d)). clear d Hd.
  intros d Hfin Hd.
  point3 H0. point3 H1. point3 H2. point3 H3. point3 Hd.
  cbn in Hfin. rewrite !andb_true_iff in Hfin.
  destruct Hfin as (Fx & Fy & Fz & _).
  assert (Z0 : is_zero (0 * delta) = true)
    by (apply mul_zero_finite; [reflexivity | exact Hdl]).
  do 2 eexists. split; [reflexivity |]. split; [reflexivity |].
  cbn.
  apply Forall2_cons; [| apply Forall2_cons; [| apply Forall2_cons;
    [| apply Forall2_nil]]];
    apply add_zero_r, mul_zero_finite; assumption.
Qed.

Close Scope float_scope.
Open Scope R_scope.

(** In exact arithmetic the offset at [v = 0] vanishes. *)
Lemma surface_point_v0_exact (p0 p1 p2 p3 d : list R) (delta u0 v0 u : R)
    (s : BezierSurface) :
  is_point3 p0 = true -> is_point3 p1 = true ->
  is_point3 p2 = true -> is_point3 p3 = true ->
  is_point3 d = true -> norm d <> 0 ->
  __init__ [p0; p1; p2; p3] delta d u0 v0 = Ok s ->
  exists r : list R,
    bezier_point p0 p1 p2 p3 u = Ok r /\ surface_point s u 0 = Ok r.
Proof.
  intros H0 H1 H2 H3 Hd _ Hs. injection Hs as <-.
  generalize (norm d). intro n.
  point3 H0. point3 H1. point3 H2. point3 H3. point3 Hd.
  eexists. split; [reflexivity |]. cbn. coordinatewise ring.
Qed.





(** ** A surface, evaluated *)

(** C9. The surface with control points (0,0,0), (1,2,0), (2,2,0),
    (3,0,0), [delta = 2], raw direction (0,0,5), [u0 = 0.5] and [v0 = 1]:
    the point at (0,0) is (0,0,0), the point at (1,0) is (3,0,0) and the
    point at (0.5,1) is (1.5, 1.5, 2.0); in exact arithmetic, and in
    binary64 arithmetic, where the stored direction is (0,0,1) and the
    displayed point is the last one. *)
Theorem concrete_scenario :
  (exists s : BezierSurface,
     __init__ [[0; 0; 0]; [1; 2; 0]; [2; 2; 0]; [3; 0; 0]] 2 [0; 0; 5] (1 / 2) 1 = Ok s
     /\ surface_point s 0 0 = Ok [0; 0; 0]
     /\ surface_point s 1 0 = Ok [3; 0; 0]
     /\ surface_point s (1 / 2) 1 = Ok [3 / 2; 3 / 2; 2])
  /\
  (exists s : BezierSurface,
     __init__ [[0; 0; 0]; [1; 2; 0]; [2; 2; 0]; [3; 0; 0]] 2 [0; 0; 5] 0.5 1 = Ok s
     /\ direction_vector s = [0; 0; 1]
     /\ surface_point s 0 0 = Ok [0; 0; 0]
     /\ surface_point s 1 0 = Ok [3; 0; 0]
     /\ surface_point s 0.5 1 = Ok [1.5; 1.5; 2]
     /\ calculate_and_display_point s = Ok [1.5; 1.5; 2])%float.
Proof.
  split.
  - eexists. split; [reflexivity |]. rewrite norm_005. cbn.
    repeat split; coordinatewise lra.
  - eexists. split; [reflexivity |]. vm_compute. repeat split.
Qed.

(** ** Construction never fails *)

Close Scope R_scope.

(** The constructor returns an object for every argument: it has no check
    and no [raise]. *)
Lemma init_never_raises {F : Type} `{Scalar F} (cps : list ndarray)
    (delta : F) (d : ndarray) (u0 v0 : F) :
  ~ raises (__init__ cps delta d u0 v0).
Proof. intros [e He]. discriminate He. Qed.

(** [bezier_point] takes exactly four positional arguments. *)
Lemma surface_point_arity {F : Type} `{Scalar F} (self : BezierSurface)
    (u v : F) :
  length (control_points self) <> 4 -> surface_point self u v = Raise TypeError.
Proof.
  unfold surface_point.
  destruct (control_points self) as [|p0 [|p1 [|p2 [|p3 [|p4 cps]]]]];
    cbn; intro Hlen; try reflexivity.
  now contradiction Hlen.
Qed.

Open Scope float_scope.

(** C7, the code at the zero direction. The constructor, whose comment
    is "Ensure unit vector", raises nothing: the object returned stores
    the other arguments as given and, as direction, the quotient of each
    zero coordinate by the zero norm, which is not a number. *)
Theorem init_zero_direction (cps : list (list float)) (delta u0 v0 : float) :
  __init__ cps delta [0; 0; 0] u0 v0
  = Ok {| control_points := cps;
          delta := delta;
          direction_vector := [nan; nan; nan];
          u0 := u0;
          v0 := v0 |}.
Proof. reflexivity. Qed.

(** C7, the failure the claim asks for does not happen: the direction
    (0,0,0) has norm 0 and the constructor raises nothing. *)
Lemma init_zero_direction_counterexample :
  norm [0; 0; 0] = 0
  /\ ~ raises (__init__ [[0; 0; 0]; [1; 2; 0]; [2; 2; 0]; [3; 0; 0]] 2
                 [0; 0; 0] 0.5 1).
Proof.
  split.
  - reflexivity.
  - apply init_never_raises.
Qed.

(** C8, as amended. The constructor checks nothing: constructing a
    surface does not fail whatever the number of control points and of
    their coordinates, and the sequence is stored as given; when it does
    not have exactly 4 points, every later evaluation of [surface_point]
    raises [TypeError]. The shapes are checked by the loader instead:
    [from_file] on a file that could be read either raises [ValueError] or
    returns a surface with exactly 4 control points of 3 coordinates
    each. *)
Theorem control_points_validation {F : Type} `{Scalar F}
    (cps : list ndarray) (delta : F) (d : ndarray) (u0 v0 : F)
    (float_of_string : string -> option F) (raw : list string) :
  (exists s : BezierSurface,
     __init__ cps delta d u0 v0 = Ok s
     /\ control_points s = cps
     /\ (length cps <> 4%nat ->
         forall u v : F, surface_point s u v = Raise TypeError))
  /\ (from_file float_of_string (Lines raw) = Raise ValueError
      \/ exists s : BezierSurface,
           from_file float_of_string (Lines raw) = Ok s
           /\ length (control_points s) = 4%nat
           /\ forallb is_point3 (control_points s) = true).
Proof.
  split.
  - eexists. split; [reflexivity |]. split; [reflexivity |].
    intros Hlen u v. now apply surface_point_arity.
  - destruct (from_file float_of_string (Lines raw)) as [s | e] eqn:Hs.
    + right. exists s. split; [reflexivity |].
      apply from_file_shape in Hs. tauto.
    + left. apply from_file_Lines_Raise in Hs. now subst e.
Qed.

Lemma control_points_validation_witness :
  (exists s : BezierSurface,
     __init__ [[0; 0; 0]; [1; 2; 0]; [2; 2; 0]] 2 [0; 0; 5] 0.5 1 = Ok s
     /\ control_points s = [[0; 0; 0]; [1; 2; 0]; [2; 2; 0]]
     /\ (length [[0; 0; 0]; [1; 2; 0]; [2; 2; 0]] <> 4%nat ->
         forall u v : float, surface_point s u v = Raise TypeError))
  /\ (from_file (fun _ : string => Some 0) (Lines []) = Raise ValueError
      \/ exists s : BezierSurface,
           from_file (fun _ : string => Some 0) (Lines []) = Ok s
           /\ length (control_points s) = 4%nat
           /\ forallb is_point3 (control_points s) = true).
Proof.
  apply (control_points_validation
           [[0; 0; 0]; [1; 2; 0]; [2; 2; 0]] 2 [0; 0; 5] 0.5 1
           (fun _ : string => Some 0) []).
Defined.

(** C8, the claim as stated fails: with three control points, and with
    four control points one of which has two coordinates, the constructor
    raises nothing. *)
Lemma init_control_points_counterexample :
  ~ raises (__init__ [[0; 0; 0]; [1; 2; 0]; [2; 2; 0]] 2 [0; 0; 5] 0.5 1)
  /\ ~ raises (__init__ [[0; 0; 0]; [1; 2]; [2; 2; 0]; [3; 0; 0]] 2
                 [0; 0; 5] 0.5 1).
Proof. split; apply init_never_raises. Qed.

(** ** Binary64 arithmetic against the exact laws

    The laws of the curve and of the surface above are laws of exact
    arithmetic. The program runs on binary64 numbers, where every
    operation rounds and can overflow or underflow, and there each of
    them fails on some input. [0x1.999999999999ap-4] is the binary64
    number written [0.1] and [0x1.999999999999ap-3] the one written
    [0.2]. *)




(** C5, the claim as stated fails in binary64 arithmetic. Four control
    points equal to (0.1, 0, 0): at [0.2] the first coordinate of the
    curve is greater than 0.1, the greatest of the four first
    coordinates. *)
Remark bezier_point_convex_hull_rounded :
  exists x y z : float,
    bezier_point [0x1.999999999999ap-4; 0; 0] [0x1.999999999999ap-4; 0; 0]
      [0x1.999999999999ap-4; 0; 0] [0x1.999999999999ap-4; 0; 0]
      0x1.999999999999ap-3 = Ok [x; y; z]
    /\ PrimFloat.ltb 0x1.999999999999ap-4 x = true.
Proof.
  do 3 eexists. split.
  - vm_compute. reflexivity.
  - vm_compute. reflexivity.
Qed.



(** * Further properties *)

Close Scope float_scope.

Lemma Ok_inj (A : Type) (a b : A) : Ok a = Ok b -> a = b.
Proof. intro Hab. now injection Hab. Qed.

(** ** The curve in any dimension *)

Section Shapes.

Context {F : Type} `{Scalar F}.

Lemma broadcast_same_length (f : F -> F -> F) (a b : ndarray) :
  length a = length b -> broadcast f a b = Ok (map2 f a b).
Proof. intro Hab. unfold broadcast. rewrite Hab, Nat.eqb_refl. reflexivity. Qed.

Lemma map2_length (f : F -> F -> F) (a b : ndarray) :
  length a = length b -> length (map2 f a b) = length a.
Proof.
  revert b. induction a as [|x a IH]; intros [|y b] Hab; cbn in *;
    try reflexivity; try discriminate.
  f_equal. apply IH. now injection Hab.
Qed.

Lemma map2_nth (f : F -> F -> F) (a b : ndarray) (i : nat) (z : F) :
  length a = length b -> i < length a ->
  nth i (map2 f a b) z = f (nth i a z) (nth i b z).
Proof.
  revert b i. induction a as [|x a IH]; intros [|y b] i Hab Hi; cbn in *;
    try lia; try discriminate.
  destruct i as [|i]; [reflexivity |].
  apply IH; [now injection Hab | lia].
Qed.

Lemma scalar_mul_length (s : F) (a : ndarray) :
  length (scalar_mul s a) = length a.
Proof. apply length_map. Qed.

Lemma scalar_mul_nth (s : F) (a : ndarray) (i : nat) (z : F) :
  i < length a -> nth i (scalar_mul s a) z = mul s (nth i a z).
Proof.
  intro Hi. unfold scalar_mul.
  rewrite (nth_indep _ z (mul s z)) by (rewrite length_map; exact Hi).
  apply (map_nth (fun x => mul s x)).
Qed.

(** One level of interpolation between two arrays of the same length. *)
Lemma lerp_arrays (u : F) (a b : ndarray) :
  length a = length b ->
  exists r : ndarray,
    array_add (scalar_mul (sub one u) a) (scalar_mul u b) = Ok r
    /\ length r = length a
    /\ forall (i : nat) (z : F), i < length a ->
         nth i r z = lerp u (nth i a z) (nth i b z).
Proof.
  intro Hab. eexists. split; [| split].
  - unfold array_add. apply broadcast_same_length.
    now rewrite !scalar_mul_length.
  - rewrite map2_length; rewrite !scalar_mul_length; congruence.
  - intros i z Hi. unfold lerp.
    rewrite map2_nth; rewrite ?scalar_mul_length; try congruence.
    rewrite !scalar_mul_nth; [reflexivity | congruence | exact Hi].
Qed.

(** The three levels, on four arrays of the same length. *)
Lemma de_casteljau_coordinates (p0 p1 p2 p3 : ndarray) (u : F) :
  length p1 = length p0 -> length p2 = length p0 -> length p3 = length p0 ->
  exists r : ndarray,
    bezier_point p0 p1 p2 p3 u = Ok r
    /\ length r = length p0
    /\ forall (i : nat) (z : F), i < length p0 ->
         nth i r z
         = de_casteljau u (nth i p0 z) (nth i p1 z) (nth i p2 z) (nth i p3 z).
Proof.
  intros H1 H2 H3. unfold bezier_point.
  destruct (lerp_arrays u p0 p1) as (p01 & -> & L01 & N01); [congruence |].
  destruct (lerp_arrays u p1 p2) as (p12 & -> & L12 & N12); [congruence |].
  destruct (lerp_arrays u p2 p3) as (p23 & -> & L23 & N23); [congruence |].
  cbn [bind].
  destruct (lerp_arrays u p01 p12) as (p012 & -> & L012 & N012); [congruence |].
  destruct (lerp_arrays u p12 p23) as (p123 & -> & L123 & N123); [congruence |].
  cbn [bind].
  destruct (lerp_arrays u p012 p123) as (r & -> & Lr & Nr); [congruence |].
  exists r. split; [reflexivity |]. split; [congruence |].
  intros i z Hi. unfold de_casteljau.
  rewrite Nr, N012, N123, N01, N12, N23 by congruence.
  reflexivity.
Qed.

(** X1. [bezier_point] is not tied to three coordinates: on four control
    points with the same number [n] of coordinates, whatever [n] and
    whatever the scalars, it raises nothing and returns [n] coordinates,
    the [i]-th one computed by the three levels of interpolation from
    the [i]-th coordinates of the control points alone. *)
Theorem bezier_point_any_dimension (p0 p1 p2 p3 : ndarray) (u : F) :
  length p1 = length p0 -> length p2 = length p0 -> length p3 = length p0 ->
  exists r : ndarray,
    bezier_point p0 p1 p2 p3 u = Ok r
    /\ length r = length p0
    /\ forall (i : nat) (z : F), i < length p0 ->
         nth i r z
         = de_casteljau u (nth i p0 z) (nth i p1 z) (nth i p2 z) (nth i p3 z).
Proof. apply de_casteljau_coordinates. Qed.

(** X2. When the first two control points have different numbers of
    coordinates, neither of them a single one, [bezier_point] raises
    [ValueError], whatever the other arguments. *)
Theorem bezier_point_shape_mismatch (p0 p1 p2 p3 : ndarray) (u : F) :
  length p0 <> length p1 -> length p0 <> 1 -> length p1 <> 1 ->
  bezier_point p0 p1 p2 p3 u = Raise ValueError.
Proof.
  intros Hne H0 H1. unfold bezier_point, array_add, broadcast.
  rewrite !scalar_mul_length.
  apply Nat.eqb_neq in Hne. rewrite Hne.
  destruct p0 as [|x0 [|y0 p0]]; destruct p1 as [|x1 [|y1 p1]]; cbn in *;
    try reflexivity; try lia.
Qed.

(** X3. A control point with a single coordinate is not refused: it is
    stretched, and the curve is the one of the point with that coordinate
    three times. *)
Theorem bezier_point_broadcasts (a : F) (p1 p2 p3 : ndarray) (u : F) :
  is_point3 p1 = true -> is_point3 p2 = true -> is_point3 p3 = true ->
  bezier_point [a] p1 p2 p3 u = bezier_point [a; a; a] p1 p2 p3 u
  /\ ~ raises (bezier_point [a] p1 p2 p3 u).
Proof.
  intros H1 H2 H3. point3 H1. point3 H2. point3 H3.
  split; [reflexivity |]. intros [e He]. discriminate He.
Qed.

(** X12. On four control points of three coordinates, a stored direction
    whose number of coordinates is neither 3 nor 1 makes every evaluation
    of [surface_point] raise [ValueError]. *)
Theorem surface_point_direction_mismatch (self : BezierSurface) (u v : F) :
  length (control_points self) = 4 ->
  forallb is_point3 (control_points self) = true ->
  length (direction_vector self) <> 3 ->
  length (direction_vector self) <> 1 ->
  surface_point self u v = Raise ValueError.
Proof.
  destruct self as [cps dl d u0' v0']. cbn [control_points direction_vector].
  intros Hlen Hcps Hd3 Hd1.
  destruct cps as [|p0 [|p1 [|p2 [|p3 [|p4 cps]]]]]; try discriminate Hlen.
  cbn in Hcps. rewrite !andb_true_iff in Hcps.
  destruct Hcps as (H0 & H1 & H2 & H3 & _).
  point3 H0. point3 H1. point3 H2. point3 H3.
  destruct d as [|a [|b [|c [|e d]]]]; cbn in *; try reflexivity; lia.
Qed.

End Shapes.

Open Scope float_scope.

Lemma bezier_point_any_dimension_witness :
  exists r : list float,
    bezier_point [0; 0] [1; 2] [2; 2] [3; 0] 0.5 = Ok r
    /\ length r = length [0; 0]
    /\ forall (i : nat) (z : float), (i < length [0; 0])%nat ->
         nth i r z
         = de_casteljau 0.5 (nth i [0; 0] z) (nth i [1; 2] z)
             (nth i [2; 2] z) (nth i [3; 0] z).
Proof.
  apply (bezier_point_any_dimension [0; 0] [1; 2] [2; 2] [3; 0] 0.5);
    reflexivity.
Defined.

Lemma bezier_point_shape_mismatch_witness :
  bezier_point [0; 0; 0] [1; 2] [2; 2; 0] [3; 0; 0] 0.5 = Raise ValueError.
Proof.
  apply (bezier_point_shape_mismatch [0; 0; 0] [1; 2] [2; 2; 0] [3; 0; 0] 0.5);
    cbn; lia.
Defined.

Lemma bezier_point_broadcasts_witness :
  bezier_point [7] [1; 2; 0] [2; 2; 0] [3; 0; 0] 0.5
  = bezier_point [7; 7; 7] [1; 2; 0] [2; 2; 0] [3; 0; 0] 0.5
  /\ ~ raises (bezier_point [7] [1; 2; 0] [2; 2; 0] [3; 0; 0] 0.5).
Proof.
  apply (bezier_point_broadcasts 7 [1; 2; 0] [2; 2; 0] [3; 0; 0] 0.5);
    reflexivity.
Defined.

Lemma surface_point_direction_mismatch_witness :
  surface_point
    {| control_points := [[0; 0; 0]; [1; 2; 0]; [2; 2; 0]; [3; 0; 0]];
       delta := 2;
       direction_vector := [0; 1];
       u0 := 0.5;
       v0 := 1 |} 0.5 1 = Raise ValueError.
Proof.
  apply (surface_point_direction_mismatch
           {| control_points := [[0; 0; 0]; [1; 2; 0]; [2; 2; 0]; [3; 0; 0]];
              delta := 2;
              direction_vector := [0; 1];
              u0 := 0.5;
              v0 := 1 |} 0.5 1); cbn; try reflexivity; lia.
Defined.

(** ** Not a number

    In binary64 arithmetic a product or a sum with an operand that is not
    a number is not a number. *)

Lemma float_of_SF (x : float) (s : spec_float) : Prim2SF x = s -> x = SF2Prim s.
Proof. intros <-. symmetry. apply SF2Prim_Prim2SF. Qed.

Lemma mul_nan_r (x : float) : x * nan = nan.
Proof.
  apply (float_of_SF (x * nan) S754_nan).
  rewrite mul_spec. change (Prim2SF nan) with S754_nan.
  destruct (Prim2SF x); reflexivity.
Qed.

Lemma mul_nan_l (x : float) : nan * x = nan.
Proof.
  apply (float_of_SF (nan * x) S754_nan).
  rewrite mul_spec. change (Prim2SF nan) with S754_nan.
  destruct (Prim2SF x); reflexivity.
Qed.

Lemma add_nan_r (x : float) : x + nan = nan.
Proof.
  apply (float_of_SF (x + nan) S754_nan).
  rewrite add_spec. change (Prim2SF nan) with S754_nan.
  destruct (Prim2SF x); reflexivity.
Qed.

Lemma add_nan_l (x : float) : nan + x = nan.
Proof.
  apply (float_of_SF (nan + x) S754_nan).
  rewrite add_spec. change (Prim2SF nan) with S754_nan.
  destruct (Prim2SF x); reflexivity.
Qed.

Lemma lerp_nan_l (u b : float) : lerp u nan b = nan.
Proof. unfold lerp. cbn. now rewrite mul_nan_r, add_nan_l. Qed.

Lemma lerp_nan_r (u a : float) : lerp u a nan = nan.
Proof. unfold lerp. cbn. now rewrite mul_nan_r, add_nan_r. Qed.

(** X6. A control point with a coordinate that is not a number makes the
    same coordinate of the curve not a number at every parameter, the two
    ends included, whatever the dimension. *)
Theorem bezier_point_nan_coordinate (p0 p1 p2 p3 : list float) (u : float)
    (i : nat) :
  length p1 = length p0 -> length p2 = length p0 -> length p3 = length p0 ->
  (i < length p0)%nat ->
  nth i p0 0 = nan \/ nth i p1 0 = nan \/ nth i p2 0 = nan \/ nth i p3 0 = nan ->
  exists r : list float,
    bezier_point p0 p1 p2 p3 u = Ok r /\ nth i r 0 = nan.
Proof.
  intros H1 H2 H3 Hi Hnan.
  destruct (de_casteljau_coordinates p0 p1 p2 p3 u H1 H2 H3)
    as (r & Hr & _ & Hcoord).
  exists r. split; [exact Hr |].
  rewrite (Hcoord i 0 Hi). unfold de_casteljau.
  destruct Hnan as [-> | [-> | [-> | ->]]];
    now rewrite ?lerp_nan_l, ?lerp_nan_r.
Qed.

Lemma bezier_point_nan_coordinate_witness :
  exists r : list float,
    bezier_point [0; 0; 0] [1; nan; 0] [2; 2; 0] [3; 0; 0] 0 = Ok r
    /\ nth 1 r 0 = nan.
Proof.
  apply (bezier_point_nan_coordinate
           [0; 0; 0] [1; nan; 0] [2; 2; 0] [3; 0; 0] 0 1);
    try reflexivity.
  - cbn. lia.
  - right. left. reflexivity.
Defined.

(** X7. The parameter is not checked: at a parameter that is not a number
    the curve point has no coordinate that is a number, and nothing is
    raised. *)
Theorem bezier_point_nan_parameter (p0 p1 p2 p3 : list float) :
  is_point3 p0 = true -> is_point3 p1 = true ->
  is_point3 p2 = true -> is_point3 p3 = true ->
  bezier_point p0 p1 p2 p3 nan = Ok [nan; nan; nan].
Proof.
  intros H0 H1 H2 H3. point3 H0. point3 H1. point3 H2. point3 H3.
  cbn. rewrite !mul_nan_l, !add_nan_l. reflexivity.
Qed.

Lemma bezier_point_nan_parameter_witness :
  bezier_point [0; 0; 0] [1; 2; 0] [2; 2; 0] [3; 0; 0] nan
  = Ok [nan; nan; nan].
Proof.
  apply (bezier_point_nan_parameter [0; 0; 0] [1; 2; 0] [2; 2; 0] [3; 0; 0]);
    reflexivity.
Defined.

(** X11. A surface built with the zero vector as direction is useless:
    whatever its control points of three coordinates, its [delta] and the
    parameters, every evaluation returns the point whose three coordinates
    are not numbers, also at [v = 0]. *)
Theorem zero_direction_poisons (p0 p1 p2 p3 : list float)
    (delta u0 v0 u v : float) (s : BezierSurface) :
  is_point3 p0 = true -> is_point3 p1 = true ->
  is_point3 p2 = true -> is_point3 p3 = true ->
  __init__ [p0; p1; p2; p3] delta [0; 0; 0] u0 v0 = Ok s ->
  surface_point s u v = Ok [nan; nan; nan].
Proof.
  intros H0 H1 H2 H3 Hs. apply Ok_inj in Hs. subst s.
  change (div_scalar [0; 0; 0] (norm [0; 0; 0])) with [nan; nan; nan].
  point3 H0. point3 H1. point3 H2. point3 H3.
  cbn. rewrite !mul_nan_r, !add_nan_r. reflexivity.
Qed.

Lemma zero_direction_poisons_witness :
  surface_point
    {| control_points := [[0; 0; 0]; [1; 2; 0]; [2; 2; 0]; [3; 0; 0]];
       delta := 2;
       direction_vector := [nan; nan; nan];
       u0 := 0.5;
       v0 := 1 |} 0.5 0 = Ok [nan; nan; nan].
Proof.
  apply (zero_direction_poisons [0; 0; 0] [1; 2; 0] [2; 2; 0] [3; 0; 0]
           2 0.5 1 0.5 0); reflexivity.
Defined.

Close Scope float_scope.

(** ** The geometry of the curve and of the surface, in exact arithmetic *)

Open Scope R_scope.

(** X4. The curve follows its control points through a scaling and a
    translation: scaling the four control points by [k] and moving them
    by [t] scales and moves every point of the curve the same way. *)
Theorem bezier_point_affine (p0 p1 p2 p3 t : list R) (k u : R) :
  is_point3 p0 = true -> is_point3 p1 = true ->
  is_point3 p2 = true -> is_point3 p3 = true -> is_point3 t = true ->
  exists r : list R,
    bezier_point p0 p1 p2 p3 u = Ok r
    /\ bezier_point (map2 Rplus (scalar_mul k p0) t)
         (map2 Rplus (scalar_mul k p1) t) (map2 Rplus (scalar_mul k p2) t)
         (map2 Rplus (scalar_mul k p3) t) u
       = Ok (map2 Rplus (scalar_mul k r) t).
Proof.
  intros H0 H1 H2 H3 Ht. point3 H0. point3 H1. point3 H2. point3 H3. point3 Ht.
  eexists. split; [reflexivity |]. cbn. coordinatewise ring.
Qed.

Lemma bezier_point_affine_witness :
  exists r : list R,
    bezier_point [0; 0; 0] [1; 2; 0] [2; 2; 0] [3; 0; 0] (1 / 2) = Ok r
    /\ bezier_point (map2 Rplus (scalar_mul 2 [0; 0; 0]) [1; 1; 1])
         (map2 Rplus (scalar_mul 2 [1; 2; 0]) [1; 1; 1])
         (map2 Rplus (scalar_mul 2 [2; 2; 0]) [1; 1; 1])
         (map2 Rplus (scalar_mul 2 [3; 0; 0]) [1; 1; 1]) (1 / 2)
       = Ok (map2 Rplus (scalar_mul 2 r) [1; 1; 1]).
Proof.
  apply (bezier_point_affine [0; 0; 0] [1; 2; 0] [2; 2; 0] [3; 0; 0] [1; 1; 1]
           2 (1 / 2)); reflexivity.
Defined.

(** X5. Control points evenly spaced on the segment from [a] to [b] give
    the segment itself, run at constant speed: the point at [u] is
    [(1 - u) * a + u * b]. *)
Theorem bezier_point_linear_precision (a b : list R) (u : R) :
  is_point3 a = true -> is_point3 b = true ->
  bezier_point a (map2 (fun x y => x + (y - x) / 3) a b)
    (map2 (fun x y => x + 2 * (y - x) / 3) a b) b u
  = Ok (map2 (fun x y => (1 - u) * x + u * y) a b).
Proof.
  intros Ha Hb. point3 Ha. point3 Hb. cbn. coordinatewise field.
Qed.

Lemma bezier_point_linear_precision_witness :
  bezier_point [0; 0; 0] (map2 (fun x y => x + (y - x) / 3) [0; 0; 0] [3; 6; 9])
    (map2 (fun x y => x + 2 * (y - x) / 3) [0; 0; 0] [3; 6; 9]) [3; 6; 9] (1 / 4)
  = Ok (map2 (fun x y => (1 - 1 / 4) * x + 1 / 4 * y) [0; 0; 0] [3; 6; 9]).
Proof.
  apply (bezier_point_linear_precision [0; 0; 0] [3; 6; 9] (1 / 4));
    reflexivity.
Defined.

(** Multiplying every coordinate by [k] multiplies the sum of squares by
    [k * k]. *)
Lemma sqnorm_acc_scale (x : list R) (k acc : R) :
  fold_left (fun a xi => a + xi * xi) (map (fun xi => k * xi) x) (k * k * acc)
  = k * k * fold_left (fun a xi => a + xi * xi) x acc.
Proof.
  revert acc. induction x as [|xi x IH]; intro acc; cbn.
  - reflexivity.
  - rewrite <- IH. f_equal. ring.
Qed.

Lemma norm_scalar_mul (k : R) (d : list R) :
  norm (scalar_mul k d) = Rabs k * norm d.
Proof.
  unfold norm. rewrite !sqnorm_real. unfold scalar_mul. cbn.
  replace 0 with (k * k * 0) at 1 by ring.
  rewrite sqnorm_acc_scale.
  rewrite sqrt_mult_alt by nra.
  f_equal. fold (Rsqr k). apply sqrt_Rsqr_abs.
Qed.

(** X8. [delta] is a length: on a surface built with a direction of
    non-zero norm, the point at [(u, v)] lies at distance [|v * delta|]
    from the point of the base curve at [u], whatever the length of the
    direction given to the constructor. *)
Theorem extrusion_distance (p0 p1 p2 p3 d : list R) (delta u0 v0 u v : R)
    (s : BezierSurface) :
  is_point3 p0 = true -> is_point3 p1 = true ->
  is_point3 p2 = true -> is_point3 p3 = true ->
  is_point3 d = true -> norm d <> 0 ->
  __init__ [p0; p1; p2; p3] delta d u0 v0 = Ok s ->
  exists r_u r_uv offset : list R,
    bezier_point p0 p1 p2 p3 u = Ok r_u
    /\ surface_point s u v = Ok r_uv
    /\ array_sub r_uv r_u = Ok offset
    /\ norm offset = Rabs (v * delta).
Proof.
  intros H0 H1 H2 H3 Hd Hn Hs. apply Ok_inj in Hs. subst s.
  pose proof (norm_normalized d Hn) as Hunit.
  assert (Hoff : norm (scalar_mul (v * delta) (div_scalar d (norm d)))
                 = Rabs (v * delta)).
  { rewrite norm_scalar_mul, Hunit. ring. }
  point3 H0. point3 H1. point3 H2. point3 H3. point3 Hd.
  do 3 eexists. split; [reflexivity |]. split; [reflexivity |].
  split; [reflexivity |].
  rewrite <- Hoff. f_equal. cbn.
  f_equal; [ring | f_equal; [ring | f_equal; ring]].
Qed.

Lemma extrusion_distance_witness :
  exists r_u r_uv offset : list R,
    bezier_point [0; 0; 0] [1; 2; 0] [2; 2; 0] [3; 0; 0] (1 / 2) = Ok r_u
    /\ surface_point
         {| control_points := [[0; 0; 0]; [1; 2; 0]; [2; 2; 0]; [3; 0; 0]];
            delta := 2;
            direction_vector := div_scalar [0; 0; 5] (norm [0; 0; 5]);
            u0 := 1 / 2;
            v0 := 1 |} (1 / 2) (-3) = Ok r_uv
    /\ array_sub r_uv r_u = Ok offset
    /\ norm offset = Rabs (-3 * 2).
Proof.
  apply (extrusion_distance [0; 0; 0] [1; 2; 0] [2; 2; 0] [3; 0; 0] [0; 0; 5]
           2 (1 / 2) 1 (1 / 2) (-3)); try reflexivity.
  rewrite norm_005. lra.
Defined.

(** X9. Only the ray of the direction matters: multiplying the direction
    given to the constructor by a positive number gives the same object,
    hence the same surface. *)
Theorem direction_scale_invariant (cps : list (list R)) (delta u0 v0 k : R)
    (d : list R) :
  0 < k -> norm d <> 0 ->
  __init__ cps delta (scalar_mul k d) u0 v0 = __init__ cps delta d u0 v0.
Proof.
  intros Hk Hn. unfold __init__. do 2 f_equal.
  rewrite norm_scalar_mul, (Rabs_right k) by lra.
  unfold div_scalar, scalar_mul. rewrite map_map. apply map_ext.
  intro x. cbn. field. split; [exact Hn | lra].
Qed.

Lemma direction_scale_invariant_witness :
  __init__ [[0; 0; 0]; [1; 2; 0]; [2; 2; 0]; [3; 0; 0]] 2
    (scalar_mul 7 [0; 0; 5]) (1 / 2) 1
  = __init__ [[0; 0; 0]; [1; 2; 0]; [2; 2; 0]; [3; 0; 0]] 2 [0; 0; 5] (1 / 2) 1.
Proof.
  apply (direction_scale_invariant
           [[0; 0; 0]; [1; 2; 0]; [2; 2; 0]; [3; 0; 0]] 2 (1 / 2) 1 7 [0; 0; 5]).
  - lra.
  - rewrite norm_005. lra.
Defined.

(** X10. Multiplying the direction by a negative number turns the surface
    over: the point at [(u, v)] of the new surface is the point at
    [(u, - v)] of the old one. *)
Theorem direction_reversed (p0 p1 p2 p3 d : list R) (delta u0 v0 k u v : R)
    (s s' : BezierSurface) :
  is_point3 p0 = true -> is_point3 p1 = true ->
  is_point3 p2 = true -> is_point3 p3 = true ->
  is_point3 d = true -> k < 0 -> norm d <> 0 ->
  __init__ [p0; p1; p2; p3] delta d u0 v0 = Ok s ->
  __init__ [p0; p1; p2; p3] delta (scalar_mul k d) u0 v0 = Ok s' ->
  exists r : list R,
    surface_point s' u v = Ok r /\ surface_point s u (- v) = Ok r.
Proof.
  intros H0 H1 H2 H3 Hd Hk Hn Hs Hs'. apply Ok_inj in Hs, Hs'. subst s s'.
  rewrite norm_scalar_mul, (Rabs_left k) by lra.
  revert Hn. generalize (norm d). intros n Hn.
  point3 H0. point3 H1. point3 H2. point3 H3. point3 Hd.
  eexists. split; [reflexivity |]. cbn. coordinatewise (field; split; lra).
Qed.

Lemma direction_reversed_witness :
  exists r : list R,
    surface_point
      {| control_points := [[0; 0; 0]; [1; 2; 0]; [2; 2; 0]; [3; 0; 0]];
         delta := 2;
         direction_vector :=
           div_scalar (scalar_mul (-1) [0; 0; 5]) (norm (scalar_mul (-1) [0; 0; 5]));
         u0 := 1 / 2;
         v0 := 1 |} (1 / 2) 1 = Ok r
    /\ surface_point
         {| control_points := [[0; 0; 0]; [1; 2; 0]; [2; 2; 0]; [3; 0; 0]];
            delta := 2;
            direction_vector := div_scalar [0; 0; 5] (norm [0; 0; 5]);
            u0 := 1 / 2;
            v0 := 1 |} (1 / 2) (- 1) = Ok r.
Proof.
  apply (direction_reversed [0; 0; 0] [1; 2; 0] [2; 2; 0] [3; 0; 0] [0; 0; 5]
           2 (1 / 2) 1 (-1) (1 / 2) 1); try reflexivity.
  - lra.
  - rewrite norm_005. lra.
Defined.

Close Scope R_scope.

(** ** The loader *)

(** What a successful [from_file] has read. *)
Lemma from_file_inversion {F : Type} `{Scalar F}
    (float_of_string : string -> option F) (raw : list string)
    (s : BezierSurface) :
  from_file float_of_string (Lines raw) = Ok s ->
  exists d : ndarray,
    7 <= length (data_lines raw)
    /\ mapM (fun i => parse_array float_of_string
                        (nth i (data_lines raw) EmptyString))
         [0; 1; 2; 3] = Ok (control_points s)
    /\ py_float float_of_string (nth 4 (data_lines raw) EmptyString)
       = Ok (delta s)
    /\ parse_array float_of_string (nth 5 (data_lines raw) EmptyString) = Ok d
    /\ length d = 3
    /\ direction_vector s
       = div_scalar (div_scalar d (norm d)) (norm (div_scalar d (norm d)))
    /\ mapM (py_float float_of_string)
         (split (nth 6 (data_lines raw) EmptyString))
       = Ok [u0 s; v0 s].
Proof.
  unfold from_file.
  destruct (from_file_body float_of_string (Lines raw)) as [s' | e] eqn:Hs;
    [| discriminate].
  intro Hs'. apply Ok_inj in Hs'. subst s'.
  unfold from_file_body in Hs. cbn [read_lines bind] in Hs. cbv zeta in Hs.
  fold (data_lines raw) in Hs.
  destruct (length (data_lines raw) <? 7) eqn:Hlen; [discriminate |].
  apply Nat.ltb_ge in Hlen.
  apply bind_Ok in Hs. destruct Hs as (cps & Hcps & Hs).
  destruct (existsb (fun point => negb (length point =? 3)) cps);
    [discriminate |].
  apply bind_Ok in Hs. destruct Hs as (dl & Hdl & Hs).
  apply bind_Ok in Hs. destruct Hs as (d & Hd & Hs).
  destruct (negb (length d =? 3)) eqn:Hd3; [discriminate |].
  apply negb_false_iff, Nat.eqb_eq in Hd3.
  apply bind_Ok in Hs. destruct Hs as (uv & Huv & Hs).
  destruct uv as [|u [|v [|w uv]]]; try discriminate.
  unfold __init__ in Hs. apply Ok_inj in Hs. subst s. cbn.
  exists d. repeat split; assumption.
Qed.

Lemma mapM_nth (A B : Type) (f : A -> result B) (l : list A) (l' : list B)
    (i : nat) (a0 : A) (b0 : B) :
  mapM f l = Ok l' -> i < length l -> f (nth i l a0) = Ok (nth i l' b0).
Proof.
  revert l' i. induction l as [|a l IH]; intros l' i Hl' Hi; cbn in *; [lia |].
  apply bind_Ok in Hl'. destruct Hl' as (b & Hb & Hl').
  apply bind_Ok in Hl'. destruct Hl' as (bs & Hbs & Hl').
  apply Ok_inj in Hl'. subst l'.
  destruct i as [|i]; [exact Hb |].
  cbn. apply IH; [exact Hbs | lia].
Qed.

(** [from_file] looks at the file through [data_lines] only. *)
Lemma from_file_data_lines {F : Type} `{Scalar F}
    (float_of_string : string -> option F) (raw raw' : list string) :
  data_lines raw = data_lines raw' ->
  from_file float_of_string (Lines raw) = from_file float_of_string (Lines raw').
Proof.
  intro Heq. unfold from_file, from_file_body. cbn [read_lines bind]. cbv zeta.
  fold (data_lines raw). fold (data_lines raw'). now rewrite Heq.
Qed.

Lemma nth_firstn_lt (A : Type) (l : list A) (n i : nat) (a : A) :
  i < n -> nth i (firstn n l) a = nth i l a.
Proof.
  revert l i. induction n as [|n IH]; intros l i Hi; [lia |].
  destruct l as [|x l]; [now destruct i |].
  destruct i as [|i]; [reflexivity |]. cbn. apply IH. lia.
Qed.



(** X14. A file is accepted only if it has at least seven lines that are
    neither blank nor comments, the first four and the sixth of them with
    exactly three fields and the seventh with exactly two. *)
Theorem from_file_field_counts {F : Type} `{Scalar F}
    (float_of_string : string -> option F) (raw : list string)
    (s : BezierSurface) :
  from_file float_of_string (Lines raw) = Ok s ->
  7 <= length (data_lines raw)
  /\ (forall i : nat, i < 4 ->
        length (split (nth i (data_lines raw) EmptyString)) = 3)
  /\ length (split (nth 5 (data_lines raw) EmptyString)) = 3
  /\ length (split (nth 6 (data_lines raw) EmptyString)) = 2.
Proof.
  intro Hs. pose proof (from_file_shape _ _ _ Hs) as (Hlen & Hcps & _).
  apply from_file_inversion in Hs.
  destruct Hs as (d & H7 & Hpts & _ & Hd & Hd3 & _ & Huv).
  split; [exact H7 |]. split; [| split].
  - intros i Hi.
    pose proof (mapM_nth _ _ _ _ _ i 0 [] Hpts) as Hi'. cbn [length] in Hi'.
    specialize (Hi' Hi).
    replace (nth i [0; 1; 2; 3] 0) with i in Hi'
      by (destruct i as [|[|[|[|i]]]]; try reflexivity; lia).
    apply mapM_length in Hi'. rewrite <- Hi'.
    rewrite forallb_forall in Hcps.
    apply Nat.eqb_eq. apply (Hcps (nth i (control_points s) [])).
    apply nth_In. lia.
  - apply mapM_length in Hd. congruence.
  - apply mapM_length in Huv. now rewrite <- Huv.
Qed.

Lemma from_file_field_counts_witness :
  7 <= length (data_lines sample_lines)
  /\ (forall i : nat, i < 4 ->
        length (split (nth i (data_lines sample_lines) EmptyString)) = 3)
  /\ length (split (nth 5 (data_lines sample_lines) EmptyString)) = 3
  /\ length (split (nth 6 (data_lines sample_lines) EmptyString)) = 2.
Proof.
  apply (from_file_field_counts digit_float sample_lines
           {| control_points :=
                [[0; 0; 0]; [1; 2; 0]; [2; 2; 0]; [3; 0; 0]]%float;
              delta := 2%float;
              direction_vector := [0; 0; 1]%float;
              u0 := 1%float;
              v0 := 1%float |}).
  vm_compute. reflexivity.
Defined.

(** X15. A blank line, and a line that starts with [#], can be put
    anywhere in the file, or taken out of it: the result of [from_file]
    is the same. *)
Theorem from_file_ignores_comments {F : Type} `{Scalar F}
    (float_of_string : string -> option F) (before after : list string)
    (line : string) :
  strip line = EmptyString \/ startswith_hash line = true ->
  from_file float_of_string (Lines (before ++ line :: after))
  = from_file float_of_string (Lines (before ++ after)).
Proof.
  intro Hline. apply from_file_data_lines. unfold data_lines.
  rewrite !filter_app. cbn [filter].
  destruct Hline as [Hblank | Hhash].
  - now rewrite Hblank.
  - rewrite Hhash, andb_false_r. reflexivity.
Qed.

Lemma from_file_ignores_comments_witness :
  from_file digit_float
    (Lines (firstn 3 sample_lines ++ "#2 2 0"%string :: skipn 3 sample_lines))
  = from_file digit_float
      (Lines (firstn 3 sample_lines ++ skipn 3 sample_lines)).
Proof.
  apply (from_file_ignores_comments digit_float (firstn 3 sample_lines)
           (skipn 3 sample_lines) "#2 2 0"%string).
  right. reflexivity.
Defined.

(** X16. Only the first seven data lines count: two files that have at
    least seven of them and agree on the first seven give the same
    result, whatever follows. *)
Theorem from_file_first_seven {F : Type} `{Scalar F}
    (float_of_string : string -> option F) (raw raw' : list string) :
  7 <= length (data_lines raw) -> 7 <= length (data_lines raw') ->
  firstn 7 (data_lines raw) = firstn 7 (data_lines raw') ->
  from_file float_of_string (Lines raw) = from_file float_of_string (Lines raw').
Proof.
  intros H7 H7' Hfirst.
  assert (Hnth : forall i, i < 7 ->
            nth i (data_lines raw) EmptyString
            = nth i (data_lines raw') EmptyString).
  { intros i Hi.
    rewrite <- (nth_firstn_lt _ (data_lines raw) 7 i) by exact Hi.
    rewrite <- (nth_firstn_lt _ (data_lines raw') 7 i) by exact Hi.
    now rewrite Hfirst. }
  unfold from_file, from_file_body. cbn [read_lines bind]. cbv zeta.
  fold (data_lines raw). fold (data_lines raw').
  apply Nat.ltb_ge in H7, H7'. rewrite H7, H7'.
  cbn [mapM].
  rewrite !(Hnth 0), !(Hnth 1), !(Hnth 2), !(Hnth 3), !(Hnth 4), !(Hnth 5),
    !(Hnth 6) by lia.
  reflexivity.
Qed.

Lemma from_file_first_seven_witness :
  from_file digit_float (Lines (sample_lines ++ ["not a number"%string]))
  = from_file digit_float (Lines sample_lines).
Proof.
  apply (from_file_first_seven digit_float
           (sample_lines ++ ["not a number"%string]) sample_lines).
  - vm_compute. lia.
  - vm_compute. lia.
  - vm_compute. reflexivity.
Defined.

(** X17. A surface read from a file is well formed and can be evaluated
    everywhere: it has exactly four control points of three coordinates
    and a direction of three coordinates, and [surface_point] raises
    nothing and returns three coordinates at every [(u, v)], whatever the
    numbers read. *)
Theorem from_file_surface_evaluates {F : Type} `{Scalar F}
    (float_of_string : string -> option F) (f : file) (s : BezierSurface) :
  from_file float_of_string f = Ok s ->
  length (control_points s) = 4
  /\ forallb is_point3 (control_points s) = true
  /\ is_point3 (direction_vector s) = true
  /\ forall u v : F,
       exists r : ndarray, surface_point s u v = Ok r /\ is_point3 r = true.
Proof.
  intro Hs. pose proof (from_file_shape _ _ _ Hs) as (Hlen & Hcps & Hd).
  repeat split; try assumption.
  intros u v. now apply surface_point_total.
Qed.

Lemma from_file_surface_evaluates_witness :
  length [[0; 0; 0]; [1; 2; 0]; [2; 2; 0]; [3; 0; 0]]%float = 4
  /\ forallb is_point3 [[0; 0; 0]; [1; 2; 0]; [2; 2; 0]; [3; 0; 0]]%float = true
  /\ is_point3 [0; 0; 1]%float = true
  /\ forall u v : float,
       exists r : list float,
         surface_point
           {| control_points :=
                [[0; 0; 0]; [1; 2; 0]; [2; 2; 0]; [3; 0; 0]]%float;
              delta := 2%float;
              direction_vector := [0; 0; 1]%float;
              u0 := 1%float;
              v0 := 1%float |} u v = Ok r
         /\ is_point3 r = true.
Proof.
  apply (from_file_surface_evaluates digit_float (Lines sample_lines)
           {| control_points :=
                [[0; 0; 0]; [1; 2; 0]; [2; 2; 0]; [3; 0; 0]]%float;
              delta := 2%float;
              direction_vector := [0; 0; 1]%float;
              u0 := 1%float;
              v0 := 1%float |}).
  vm_compute. reflexivity.
Defined.

Open Scope R_scope.

Lemma div_scalar_one (d : list R) : div_scalar d 1 = d.
Proof.
  unfold div_scalar. rewrite <- (map_id d) at 2. apply map_ext.
  intro x. cbn. field.
Qed.

(** X18. The direction is divided by its norm twice, by [from_file] and
    by the constructor; in exact arithmetic the second division changes
    nothing: when the direction read has a non-zero norm, the surface
    stores that direction divided by its norm, a vector of norm 1. *)
Theorem from_file_unit_direction (float_of_string : string -> option R)
    (raw : list string) (d : list R) (s : BezierSurface) :
  from_file float_of_string (Lines raw) = Ok s ->
  parse_array float_of_string (nth 5 (data_lines raw) EmptyString) = Ok d ->
  norm d <> 0 ->
  direction_vector s = div_scalar d (norm d)
  /\ norm (direction_vector s) = 1.
Proof.
  intros Hs Hd Hn. apply from_file_inversion in Hs.
  destruct Hs as (d' & _ & _ & _ & Hd' & _ & Hdir & _).
  rewrite Hd in Hd'. apply Ok_inj in Hd'. subst d'.
  rewrite Hdir, norm_normalized, div_scalar_one by exact Hn.
  split; [reflexivity |]. now apply norm_normalized.
Qed.

Lemma norm_111 : norm [1; 1; 1] <> 0.
Proof.
  unfold norm. cbn. apply Rgt_not_eq, sqrt_lt_R0. lra.
Qed.

Lemma from_file_unit_direction_witness :
  direction_vector
    {| control_points := [[1; 1; 1]; [1; 1; 1]; [1; 1; 1]; [1; 1; 1]];
       delta := 1;
       direction_vector :=
         div_scalar (div_scalar [1; 1; 1] (norm [1; 1; 1]))
           (norm (div_scalar [1; 1; 1] (norm [1; 1; 1])));
       u0 := 1;
       v0 := 1 |}
  = div_scalar [1; 1; 1] (norm [1; 1; 1])
  /\ norm (direction_vector
             {| control_points := [[1; 1; 1]; [1; 1; 1]; [1; 1; 1]; [1; 1; 1]];
                delta := 1;
                direction_vector :=
                  div_scalar (div_scalar [1; 1; 1] (norm [1; 1; 1]))
                    (norm (div_scalar [1; 1; 1] (norm [1; 1; 1])));
                u0 := 1;
                v0 := 1 |}) = 1.
Proof.
  apply (from_file_unit_direction (fun _ : string => Some 1) sample_lines
           [1; 1; 1]).
  - reflexivity.
  - reflexivity.
  - exact norm_111.
Defined.

Close Scope R_scope.

(** ** The menu loop *)

Section MenuLoop.

Context {F : Type} `{Scalar F}.

Variable float_of_string : string -> option F.

Lemma menu_loop_exit (s : BezierSurface) (before after : list string) :
  menu_loop s (before ++ "2"%string :: after)
  = menu_loop s (before ++ ["2"%string]).
Proof.
  induction before as [|opt before IH]; cbn.
  - reflexivity.
  - destruct (String.eqb opt "1").
    + destruct (calculate_and_display_point s); [| reflexivity].
      now rewrite IH.
    + destruct (String.eqb opt "2"); [reflexivity |].
      now rewrite IH.
Qed.

(** The turns before the first [2], on a surface that can be evaluated
    at its stored parameters. *)
Lemma menu_loop_transcript (s : BezierSurface) (r : ndarray)
    (before rest : list string) :
  calculate_and_display_point s = Ok r ->
  ~ In "2"%string before ->
  menu_loop s (before ++ rest)
  = (flat_map (menu_round s r) before ++ fst (menu_loop s rest),
     snd (menu_loop s rest)).
Proof.
  intros Hr. induction before as [|opt before IH]; intro Hno; cbn.
  - now destruct (menu_loop s rest).
  - assert (Hopt : String.eqb opt "2" = false).
    { apply String.eqb_neq. intro Heq. apply Hno. left. now subst opt. }
    assert (Hno' : ~ In "2"%string before) by (intro; apply Hno; now right).
    specialize (IH Hno'). unfold menu_round at 1.
    destruct (String.eqb opt "1").
    + rewrite Hr, IH. reflexivity.
    + rewrite Hopt, IH. reflexivity.
Qed.

Lemma menu_loop_Raised (s : BezierSurface) (options : list string) (e : exn) :
  snd (menu_loop s options) = Raised e ->
  calculate_and_display_point s = Raise e.
Proof.
  induction options as [|opt options IH]; cbn; [discriminate |].
  destruct (String.eqb opt "1").
  - destruct (calculate_and_display_point s) as [r | e'].
    + destruct (menu_loop s options). exact IH.
    + cbn. intro He. now injection He as <-.
  - destruct (String.eqb opt "2"); [discriminate |].
    destruct (menu_loop s options). exact IH.
Qed.

(** X19. Nothing typed after the first [2] is read: [main] writes the
    same and ends the same whatever follows it. *)
Theorem main_stops_at_exit (f : file) (before after : list string) :
  main float_of_string f (before ++ "2"%string :: after)
  = main float_of_string f (before ++ ["2"%string]).
Proof.
  unfold main. destruct (from_file float_of_string f); [| reflexivity].
  apply menu_loop_exit.
Qed.

(** X20. What [main] writes on a file that is accepted. For each option
    typed before the first [2] it writes the menu and then, for [1], the
    point at the stored parameters, always the same one, and for anything
    else the message of an invalid option. At the option [2] it writes
    the menu and the farewell and returns; when the input ends before
    any [2] it has written the menu once more and [input] fails. *)
Theorem main_transcript (f : file) (s : BezierSurface)
    (before after : list string) :
  from_file float_of_string f = Ok s ->
  ~ In "2"%string before ->
  exists r : ndarray,
    surface_point s (u0 s) (v0 s) = Ok r
    /\ main float_of_string f (before ++ "2"%string :: after)
       = (flat_map (menu_round s r) before ++ [Menu; Goodbye], Returned)
    /\ main float_of_string f before
       = (flat_map (menu_round s r) before ++ [Menu], EndOfInput).
Proof.
  intros Hs Hno.
  destruct (from_file_evaluates _ _ _ (u0 s) (v0 s) Hs) as (r & Hr & _).
  exists r. split; [exact Hr |]. unfold main. rewrite Hs. split.
  - rewrite (menu_loop_transcript s r before _ Hr Hno). cbn.
    reflexivity.
  - rewrite <- (app_nil_r before) at 1.
    rewrite (menu_loop_transcript s r before _ Hr Hno). reflexivity.
Qed.


End MenuLoop.

Lemma main_transcript_witness :
  exists r : list float,
    surface_point
      {| control_points := [[0; 0; 0]; [1; 2; 0]; [2; 2; 0]; [3; 0; 0]]%float;
         delta := 2%float;
         direction_vector := [0; 0; 1]%float;
         u0 := 1%float;
         v0 := 1%float |} 1%float 1%float = Ok r
    /\ main digit_float (Lines sample_lines)
         (["1"; "x"; "1"] ++ "2" :: ["1"])%string
       = (flat_map
            (menu_round
               {| control_points :=
                    [[0; 0; 0]; [1; 2; 0]; [2; 2; 0]; [3; 0; 0]]%float;
                  delta := 2%float;
                  direction_vector := [0; 0; 1]%float;
                  u0 := 1%float;
                  v0 := 1%float |} r)
            ["1"; "x"; "1"]%string ++ [Menu; Goodbye], Returned)
    /\ main digit_float (Lines sample_lines) ["1"; "x"; "1"]%string
       = (flat_map
            (menu_round
               {| control_points :=
                    [[0; 0; 0]; [1; 2; 0]; [2; 2; 0]; [3; 0; 0]]%float;
                  delta := 2%float;
                  direction_vector := [0; 0; 1]%float;
                  u0 := 1%float;
                  v0 := 1%float |} r)
            ["1"; "x"; "1"]%string ++ [Menu], EndOfInput).
Proof.
  apply (main_transcript digit_float (Lines sample_lines)
           {| control_points :=
                [[0; 0; 0]; [1; 2; 0]; [2; 2; 0]; [3; 0; 0]]%float;
              delta := 2%float;
              direction_vector := [0; 0; 1]%float;
              u0 := 1%float;
              v0 := 1%float |} ["1"; "x"; "1"]%string ["1"%string]).
  - vm_compute. reflexivity.
  - intros [H | [H | [H | []]]]; discriminate H.
Defined.

